(** * Expense tracker service (src/main.py): a shallow embedding.

    The SQLite table [expenses] is modelled as the list of its rows in rowid
    order together with the AUTOINCREMENT counter kept in [sqlite_sequence].
    The [amount] column (SQLite REAL) is modelled as an exact integer amount
    (for instance in cents): floating-point rounding, infinities and NaN
    are not modelled.  Rowids are SQLite INTEGERs, signed 64-bit.
    Text comparison is SQLite's BINARY collation, i.e. byte-wise
    lexicographic order, which is [String.leb] on ASCII strings. *)

From Stdlib Require Import String Ascii List ZArith Lia Bool Sorted Permutation.
Import ListNotations.
Open Scope Z_scope.
Set Warnings "-register-all".


(** ** Rows of the [expenses] table (lines 59-68 of the source). *)

Record expense := mk_expense {
  id : Z;
  date : string;
  amount : Z;
  category : string;
  subcategory : string;
  note : string
}.

(** Largest rowid SQLite can hand out: AUTOINCREMENT raises SQLITE_FULL
    once the counter reaches it. *)
Definition max_rowid : Z := 9223372036854775807.

(** Smallest SQLite INTEGER. *)
Definition min_int64 : Z := -9223372036854775808.

(** Whether sqlite3 can bind a Python int as an SQLite INTEGER; outside the
    signed 64-bit range it raises [OverflowError]. *)
Definition in_int64 (i : Z) : bool := Z.leb min_int64 i && Z.leb i max_rowid.

(** ** Text helpers used by the f-strings of the source. *)

Fixpoint digits_rev (fuel : nat) (n : Z) : string :=
  match fuel with
  | O => EmptyString
  | S fuel' =>
      let d := Z.modulo n 10 in
      let c := ascii_of_nat (48 + Z.to_nat d) in
      if Z.ltb n 10 then String c EmptyString
      else String c (digits_rev fuel' (Z.div n 10))
  end.

Fixpoint string_rev (s : string) : string :=
  match s with
  | EmptyString => EmptyString
  | String c s' => append (string_rev s') (String c EmptyString)
  end.

(** [str(n)] for a Python int. *)
Definition z_to_string (n : Z) : string :=
  if Z.ltb n 0 then append "-" (string_rev (digits_rev 64 (Z.opp n)))
  else string_rev (digits_rev 64 n).

(** ** ORDER BY.

    SQL fixes the order of the rows by the ORDER BY key only; rows with
    equal keys come out in an order the engine chooses.  An [order_by] is
    any implementation of ORDER BY: it permutes its input and returns it
    sorted for the (total) comparison it is given. *)

Record order_by := {
  ob_sort : forall A : Type, (A -> A -> bool) -> list A -> list A;
  ob_perm : forall A (le : A -> A -> bool) l, Permutation (ob_sort A le l) l;
  ob_sorted : forall A (le : A -> A -> bool) l,
      (forall x y, le x y = true \/ le y x = true) ->
      Sorted (fun x y => le x y = true) (ob_sort A le l)
}.

Section InsertionSort.
Variable A : Type.
Variable le : A -> A -> bool.

Fixpoint insert_sorted (x : A) (l : list A) : list A :=
  match l with
  | [] => [x]
  | h :: t => if le x h then x :: h :: t else h :: insert_sorted x t
  end.

Definition isort (l : list A) : list A := fold_right insert_sorted [] l.

Lemma insert_sorted_perm x l : Permutation (insert_sorted x l) (x :: l).
Proof.
  induction l as [|h t IH]; simpl; [auto|].
  destruct (le x h); [auto|].
  eapply perm_trans; [apply perm_skip, IH | apply perm_swap].
Qed.

Lemma isort_perm l : Permutation (isort l) l.
Proof.
  induction l as [|h t IH]; simpl; [auto|].
  eapply perm_trans; [apply insert_sorted_perm | auto].
Qed.

Hypothesis le_total : forall x y, le x y = true \/ le y x = true.

Lemma insert_sorted_sorted x l :
  Sorted (fun a b => le a b = true) l ->
  Sorted (fun a b => le a b = true) (insert_sorted x l).
Proof.
  induction 1 as [|h t Ht IH Hhd]; simpl; [auto|].
  destruct (le x h) eqn:Exh; [auto|].
  assert (Hhx : le h x = true) by (destruct (le_total x h); congruence).
  constructor; [exact IH|].
  destruct t as [|h' t']; simpl; [auto|].
  inversion Hhd; subst.
  destruct (le x h'); auto.
Qed.

Lemma isort_sorted l : Sorted (fun a b => le a b = true) (isort l).
Proof.
  induction l; simpl; [auto|]. apply insert_sorted_sorted; assumption.
Qed.
End InsertionSort.


(** One concrete ORDER BY: a stable insertion sort over the scan order. *)
Definition isort_order_by : order_by :=
  {| ob_sort := isort; ob_perm := isort_perm; ob_sorted := fun A le l H => isort_sorted A le H l |}.

(** ** Database state.

    [db_initialized] is the module-level flag [_db_initialized] of
    [ensure_db]; [rows] is the [expenses] table in rowid order; [seq] is the
    AUTOINCREMENT counter of the table in [sqlite_sequence]. *)
Record db_state := mk_db {
  db_initialized : bool;
  rows : list expense;
  seq : Z
}.

(** A fresh database file. *)
Definition empty_db : db_state := mk_db false [] 0.

(** Where the storage layer raises during one call of an operation:
    [InitFault m] when [ensure_db] has to create the table, [StoreFault m]
    while connecting or executing (before the commit, so nothing is
    written), [CloseFault m] when the connection is closed on leaving the
    [async with] block, after the work (and its commit) is done. *)
Inductive fault :=
| NoFault
| InitFault (msg : string)
| StoreFault (msg : string)
| CloseFault (msg : string).

(** Exceptions: the [RuntimeError] raised by [ensure_db], the errors of
    sqlite3/aiosqlite (its [OverflowError] on binding included), and the
    rejection of a call that lacks the required parameter [param]: the
    arguments are bound to the signature before the body runs, a Python
    call raising [TypeError] and the MCP tool layer, which checks the
    arguments against the same signature, answering with its own
    validation error. *)
Inductive exn :=
| RuntimeError (msg : string)
| StorageError (msg : string)
| ArgumentError (param : string).

Definition exn_str (e : exn) : string :=
  match e with
  | RuntimeError m => m
  | StorageError m => m
  | ArgumentError p => append "missing required argument: " p
  end.

(** The outcome of a Python call: a returned value or a raised exception. *)
Inductive py_result (A : Type) :=
| Return (v : A)
| Raise (e : exn).
Arguments Return {A} v.
Arguments Raise {A} e.

(** The state/exception monad the service code runs in. *)
Definition M (A : Type) := db_state -> py_result A * db_state.

Definition ret {A} (v : A) : M A := fun st => (Return v, st).
Definition raise {A} (e : exn) : M A := fun st => (Raise e, st).
Definition bind {A B} (m : M A) (k : A -> M B) : M B :=
  fun st => match m st with
            | (Return v, st') => k v st'
            | (Raise e, st') => (Raise e, st')
            end.
Notation "x <- m ;; k" := (bind m (fun x => k)) (at level 61, m at next level, right associativity).

(** One summary row: [SELECT category, SUM(amount) AS total, COUNT( * ) AS count]. *)
Record summary_row := mk_summary_row {
  s_category : string;
  s_total : Z;
  s_count : Z
}.

(** The dictionaries returned by the four tools. *)
Inductive envelope :=
| AddSuccess (new_id : Z) (message : string)
| ListSuccess (count : nat) (expenses : list expense)
| SummarySuccess (summary : list summary_row) (total : Z) (period : string)
| DeleteSuccess (message : string)
| Failure (message : string).

Definition status (e : envelope) : string :=
  match e with Failure _ => "error" | _ => "success" end.

(** [try: body except Exception as e: return {"status": "error", "message": str(e)}] *)
Definition try_except (body : M envelope) : M envelope :=
  fun st => match body st with
            | (Return v, st') => (Return v, st')
            | (Raise e, st') => (Return (Failure (exn_str e)), st')
            end.

(** ** ensure_db (lines 47-74). *)
Definition ensure_db (f : fault) : M unit :=
  fun st =>
    if db_initialized st then (Return tt, st)
    else match f with
         | InitFault m =>
             (Raise (RuntimeError (append "Database initialization failed: " m)), st)
         | _ => (Return tt, mk_db true (rows st) (seq st))
         end.

(** [async with aiosqlite.connect(DB_PATH) as db: body] *)
Definition with_connect {A} (f : fault) (body : M A) : M A :=
  fun st =>
    match f with
    | StoreFault m => (Raise (StorageError m), st)
    | CloseFault m =>
        match body st with
        | (Return _, st') => (Raise (StorageError m), st')
        | r => r
        end
    | _ => body st
    end.

(** ** SQL statements on the [expenses] table. *)

Definition max_id (l : list expense) : Z := fold_right (fun r m => Z.max (id r) m) 0 l.

(** [INSERT INTO expenses (date, amount, category, subcategory, note) VALUES (...)]
    followed by the commit: AUTOINCREMENT picks one more than the larger of
    the counter and the largest rowid, and fails with SQLITE_FULL at the
    largest rowid; [cur.lastrowid] is the new rowid. *)
Definition sql_insert (d : string) (a : Z) (c sc n : string) : M Z :=
  fun st =>
    let base := Z.max (seq st) (max_id (rows st)) in
    if Z.leb max_rowid base then (Raise (StorageError "database or disk is full"), st)
    else let nid := base + 1 in
         (Return nid,
          mk_db (db_initialized st) (rows st ++ [mk_expense nid d a c sc n]) nid).

(** [date BETWEEN start AND end] on TEXT with the BINARY collation. *)
Definition between (lo hi s : string) : bool := String.leb lo s && String.leb s hi.

(** [ORDER BY date DESC] *)
Definition date_desc (r1 r2 : expense) : bool := String.leb (date r2) (date r1).

(** [SELECT ... FROM expenses WHERE date BETWEEN ? AND ? ORDER BY date DESC] *)
Definition sql_select_range (ob : order_by) (d1 d2 : string) : M (list expense) :=
  fun st => (Return (ob_sort ob expense date_desc
                      (filter (fun r => between d1 d2 (date r)) (rows st))), st).

(** GROUP BY category with SUM(amount) and COUNT( * ), accumulated row by row
    in scan order. *)
Fixpoint add_to_groups (gs : list summary_row) (r : expense) : list summary_row :=
  match gs with
  | [] => [mk_summary_row (category r) (amount r) 1]
  | g :: gs' =>
      if String.eqb (s_category g) (category r)
      then mk_summary_row (s_category g) (s_total g + amount r) (s_count g + 1) :: gs'
      else g :: add_to_groups gs' r
  end.

Definition group_by_category (l : list expense) : list summary_row :=
  fold_left add_to_groups l [].

(** [ORDER BY total DESC] *)
Definition total_desc (g1 g2 : summary_row) : bool := Z.leb (s_total g2) (s_total g1).

(** The WHERE clause of the summary query: the date range, plus
    [AND category = ?] when the filter was added. *)
Definition summary_where (d1 d2 : string) (cat : option string) (r : expense) : bool :=
  between d1 d2 (date r) &&
  match cat with Some c => String.eqb (category r) c | None => true end.

Definition sql_summary (ob : order_by) (d1 d2 : string) (cat : option string)
  : M (list summary_row) :=
  fun st => (Return (ob_sort ob summary_row total_desc
                      (group_by_category (filter (summary_where d1 d2 cat) (rows st)))), st).

(** [DELETE FROM expenses WHERE id = ?] followed by the commit; returns
    [cur.rowcount].  Binding an id outside the SQLite INTEGER range raises
    [OverflowError] before the statement runs. *)
Definition sql_delete (i : Z) : M nat :=
  fun st =>
    if in_int64 i then
      let keep := filter (fun r => negb (Z.eqb (id r) i)) (rows st) in
      (Return (length (rows st) - length keep)%nat,
       mk_db (db_initialized st) keep (seq st))
    else (Raise (StorageError "Python int too large to convert to SQLite INTEGER"), st).

(** ** The MCP tools (lines 80-216). *)

(** [add_expense(date, amount, category, subcategory="", note="")] *)
Definition add_expense (f : fault) (d : string) (a : Z) (c sc n : string) : M envelope :=
  try_except (
    _ <- ensure_db f ;;
    with_connect f (
      nid <- sql_insert d a c sc n ;;
      ret (AddSuccess nid
             (append "Expense added: $" (append (z_to_string a) (append " for " c)))))).

(** [list_expenses(start_date, end_date)] *)
Definition list_expenses (ob : order_by) (f : fault) (d1 d2 : string) : M envelope :=
  try_except (
    _ <- ensure_db f ;;
    with_connect f (
      expenses <- sql_select_range ob d1 d2 ;;
      ret (ListSuccess (length expenses) expenses))).

(** Python truthiness of [category: str = None] in [if category:]. *)
Definition truthy (cat : option string) : bool :=
  match cat with Some c => negb (String.eqb c "") | None => false end.

(** [sum(row['total'] for row in summary)] *)
Definition sum_totals (summary : list summary_row) : Z :=
  fold_left (fun acc g => acc + s_total g) summary 0.

(** [summarize_expenses(start_date, end_date, category=None)] *)
Definition summarize_expenses (ob : order_by) (f : fault) (d1 d2 : string)
  (cat : option string) : M envelope :=
  try_except (
    _ <- ensure_db f ;;
    let filt := if truthy cat then cat else None in
    with_connect f (
      summary <- sql_summary ob d1 d2 filt ;;
      ret (SummarySuccess summary (sum_totals summary)
             (append d1 (append " to " d2))))).

(** [delete_expense(expense_id)] *)
Definition delete_expense (f : fault) (i : Z) : M envelope :=
  try_except (
    _ <- ensure_db f ;;
    with_connect f (
      rowcount <- sql_delete i ;;
      if Nat.eqb rowcount 0
      then ret (Failure (append "Expense " (append (z_to_string i) " not found")))
      else ret (DeleteSuccess (append "Expense " (append (z_to_string i) " deleted"))))).

(** ** Sequences of tool calls. *)

Inductive op :=
| OpAdd (d : string) (a : Z) (c sc n : string)
| OpList (d1 d2 : string)
| OpSummarize (d1 d2 : string) (cat : option string)
| OpDelete (i : Z).

(** One call: the tool invoked, how the storage layer behaves during it, and
    how the engine orders rows with equal ORDER BY keys. *)
Record call := mk_call { c_op : op; c_fault : fault; c_order : order_by }.

Definition run_op (c : call) : M envelope :=
  match c_op c with
  | OpAdd d a ct sc n => add_expense (c_fault c) d a ct sc n
  | OpList d1 d2 => list_expenses (c_order c) (c_fault c) d1 d2
  | OpSummarize d1 d2 cat => summarize_expenses (c_order c) (c_fault c) d1 d2 cat
  | OpDelete i => delete_expense (c_fault c) i
  end.

Fixpoint run (st : db_state) (tr : list call) : db_state * list (py_result envelope) :=
  match tr with
  | [] => (st, [])
  | c :: tr' =>
      let (r, st') := run_op c st in
      let (st'', rs) := run st' tr' in
      (st'', r :: rs)
  end.

(** The ids reported by the successful [add_expense] calls of a run. *)
Fixpoint added_ids (rs : list (py_result envelope)) : list Z :=
  match rs with
  | [] => []
  | Return (AddSuccess i _) :: rs' => i :: added_ids rs'
  | _ :: rs' => added_ids rs'
  end.

(** Well-formed table: rowids are distinct and none exceeds the
    AUTOINCREMENT counter, which is not negative; as in every SQLite table,
    the counter and the rowids are SQLite INTEGERs. *)
Definition wf (st : db_state) : Prop :=
  0 <= seq st /\ NoDup (map id (rows st)) /\ Forall (fun r => id r <= seq st) (rows st) /\
  (seq st <= max_rowid /\ Forall (fun r => min_int64 <= id r) (rows st)).

(** ** Concrete runs. *)
Definition food := mk_expense 1 "2024-03-01" 4250 "Food & Dining" "" "".
Definition taxi := mk_expense 2 "2024-03-05" 1500 "Transportation" "" "".

Example add_two :
  run empty_db [mk_call (OpAdd "2024-03-01" 4250 "Food & Dining" "" "") NoFault isort_order_by;
                mk_call (OpAdd "2024-03-05" 1500 "Transportation" "" "") NoFault isort_order_by;
                mk_call (OpList "2024-03-01" "2024-03-31") NoFault isort_order_by]
  = (mk_db true [food; taxi] 2,
     [Return (AddSuccess 1 "Expense added: $4250 for Food & Dining");
      Return (AddSuccess 2 "Expense added: $1500 for Transportation");
      Return (ListSuccess 2 [taxi; food])]).
Proof. reflexivity. Qed.

(** ** Lemmas on the table. *)

Lemma max_id_le l s : 0 <= s -> Forall (fun r => id r <= s) l -> max_id l <= s.
Proof.
  intros H0 H; induction H; simpl; [lia|]. lia.
Qed.

Lemma wf_base st : wf st -> Z.max (seq st) (max_id (rows st)) = seq st.
Proof.
  intros (H0 & _ & Hle & _). pose proof (max_id_le _ _ H0 Hle). lia.
Qed.

Lemma wf_id_range st e : wf st -> In e (rows st) -> min_int64 <= id e <= max_rowid.
Proof.
  intros (_ & _ & Hle & Hmax & Hmin) He. rewrite Forall_forall in Hle, Hmin.
  specialize (Hle e He). specialize (Hmin e He). lia.
Qed.

Lemma in_int64_true i : min_int64 <= i <= max_rowid -> in_int64 i = true.
Proof.
  intros [H1 H2]. unfold in_int64. apply andb_true_intro. split; apply Z.leb_le; assumption.
Qed.

Lemma Forall_id_weaken l s s' :
  s <= s' -> Forall (fun r => id r <= s) l -> Forall (fun r => id r <= s') l.
Proof.
  intros Hs H. eapply Forall_impl; [|exact H]. intros r Hr; simpl in Hr; lia.
Qed.

Lemma not_in_ids l s i : Forall (fun r => id r <= s) l -> s < i -> ~ In i (map id l).
Proof.
  intros H Hi Hin. apply in_map_iff in Hin as (r & <- & Hr).
  rewrite Forall_forall in H. specialize (H r Hr). lia.
Qed.

Lemma wf_append st b d a c sc n :
  wf st -> seq st < max_rowid ->
  wf (mk_db b (rows st ++ [mk_expense (seq st + 1) d a c sc n]) (seq st + 1)).
Proof.
  intros (H0 & Hnd & Hle & _ & Hmin) Hroom. unfold wf; simpl. split; [lia|]. split; [|split; [|split]].
  - rewrite map_app. simpl. apply NoDup_app; [exact Hnd | constructor; [simpl; tauto | constructor] |].
    intros x Hx Hy. simpl in Hy. destruct Hy as [<-|[]].
    eapply not_in_ids; [exact Hle | | exact Hx]. lia.
  - apply Forall_app. split.
    + eapply Forall_id_weaken; [|exact Hle]. lia.
    + constructor; simpl; [lia | constructor].
  - lia.
  - apply Forall_app. split; [exact Hmin|]. constructor; simpl; [unfold min_int64; lia | constructor].
Qed.

Lemma NoDup_map_filter {A B} (g : A -> B) (p : A -> bool) l :
  NoDup (map g l) -> NoDup (map g (filter p l)).
Proof.
  induction l as [|x l IH]; simpl; intros H; [constructor|].
  inversion H as [|? ? Hnin Hnd]; subst.
  destruct (p x); simpl; [|auto].
  constructor; [|auto].
  intros Hin. apply Hnin. apply in_map_iff in Hin as (y & Hy & Hyin).
  apply filter_In in Hyin as [Hyin _]. rewrite <- Hy. apply in_map; exact Hyin.
Qed.

Lemma wf_delete st b i :
  wf st -> wf (mk_db b (filter (fun r => negb (Z.eqb (id r) i)) (rows st)) (seq st)).
Proof.
  intros (H0 & Hnd & Hle & Hmax & Hmin). unfold wf; simpl. split; [lia|]. split; [|split; [|split]].
  - apply NoDup_map_filter; exact Hnd.
  - rewrite Forall_forall in *. intros r Hr. apply filter_In in Hr as [Hr _]. auto.
  - exact Hmax.
  - rewrite Forall_forall in *. intros r Hr. apply filter_In in Hr as [Hr _]. auto.
Qed.

Lemma wf_init st b : wf st -> wf (mk_db b (rows st) (seq st)).
Proof. intros H; exact H. Qed.

(** ** Every call keeps the table well formed, never lowers the counter, and
    an [add_expense] that reports success reports the new counter value. *)

Ltac unfold_tools :=
  unfold run_op, add_expense, list_expenses, summarize_expenses, delete_expense,
    try_except, bind, ensure_db, with_connect, sql_insert, sql_select_range,
    sql_summary, sql_delete, ret in *; simpl in *.

Lemma run_op_facts c st :
  wf st ->
  let (r, st') := run_op c st in
  wf st' /\ seq st <= seq st' /\ (exists v, r = Return v) /\
  (forall i m, r = Return (AddSuccess i m) -> i = seq st' /\ seq st < i).
Proof.
  intros Hwf. pose proof (wf_base st Hwf) as Hb.
  pose proof Hwf as (H0 & _ & _).
  destruct c as [o f ob]; destruct o; unfold_tools;
    destruct (db_initialized st); destruct f; simpl; rewrite ?Hb;
    repeat match goal with
           | |- context [Z.leb ?a ?b] => destruct (Z.leb_spec a b)
           | |- context [Nat.eqb ?a ?b] => destruct (Nat.eqb a b)
           | |- context [truthy ?c] => destruct (truthy c)
           | |- context [in_int64 ?i] => destruct (in_int64 i)
           end; simpl;
    (split; [eauto using wf_append, wf_delete, wf_init
            | split; [lia | split; [eexists; reflexivity
                                  | intros ? ? Heq; inversion Heq; split; lia]]]).
Qed.

(** Rows after a call were there before, or carry the id that AUTOINCREMENT
    has just handed out. *)
Lemma run_op_rows c st :
  wf st ->
  let (r, st') := run_op c st in
  forall e, In e (rows st') -> In e (rows st) \/ (id e = seq st' /\ seq st < seq st').
Proof.
  intros Hwf. pose proof (wf_base st Hwf) as Hb.
  destruct c as [o f ob]; destruct o; unfold_tools;
    destruct (db_initialized st); destruct f; simpl; rewrite ?Hb;
    repeat match goal with
           | |- context [Z.leb ?a ?b] => destruct (Z.leb a b)
           | |- context [Nat.eqb ?a ?b] => destruct (Nat.eqb a b)
           | |- context [truthy ?c] => destruct (truthy c)
           | |- context [in_int64 ?i] => destruct (in_int64 i)
           end; simpl; intros e He; auto;
    repeat match goal with
           | H : In _ (_ ++ _) |- _ => apply in_app_or in H as [H|H]
           | H : In _ [_] |- _ => destruct H as [<-|[]]
           | H : In _ (filter _ _) |- _ => apply filter_In in H as [H _]
           end; auto; right; simpl; lia.
Qed.

(** The rows a listing returns are rows of the table. *)
Lemma run_op_list_rows c st n l st' :
  run_op c st = (Return (ListSuccess n l), st') -> forall e, In e l -> In e (rows st).
Proof.
  destruct c as [o f ob]; destruct o; unfold_tools;
    destruct (db_initialized st); destruct f; simpl;
    repeat match goal with
           | |- context [Z.leb ?a ?b] => destruct (Z.leb a b)
           | |- context [Nat.eqb ?a ?b] => destruct (Nat.eqb a b)
           | |- context [truthy ?c] => destruct (truthy c)
           | |- context [in_int64 ?i] => destruct (in_int64 i)
           end; simpl; intros Heq; inversion Heq; subst; intros e He;
    apply (Permutation_in _ (ob_perm ob _ _ _)) in He;
    apply filter_In in He as [He _]; exact He.
Qed.

(** ** Deleting. *)

Lemma filter_length_lt {A} (p : A -> bool) l x :
  In x l -> p x = false -> (length (filter p l) < length l)%nat.
Proof.
  induction l as [|y l IH]; simpl; [tauto|]. intros [<-|Hin] Hp.
  - rewrite Hp. apply Nat.lt_succ_r. clear IH.
    induction l as [|z l IHl]; simpl; [lia|]. destruct (p z); simpl; lia.
  - specialize (IH Hin Hp). destruct (p y); simpl; lia.
Qed.

Lemma filter_all_kept {A} (p : A -> bool) l :
  (forall x, In x l -> p x = true) -> filter p l = l.
Proof.
  intros H. apply forallb_filter_id, forallb_forall. exact H.
Qed.

Definition not_found_msg (i : Z) : string :=
  append "Expense " (append (z_to_string i) " not found").
Definition deleted_msg (i : Z) : string :=
  append "Expense " (append (z_to_string i) " deleted").

(** Deleting an SQLite INTEGER no row carries reports not-found and changes
    no row. *)
Lemma delete_absent st i :
  min_int64 <= i <= max_rowid -> ~ In i (map id (rows st)) ->
  delete_expense NoFault i st
  = (Return (Failure (not_found_msg i)), mk_db true (rows st) (seq st)).
Proof.
  intros Hr Hi. pose proof (in_int64_true i Hr) as Hr'.
  assert (Hk : filter (fun r => negb (Z.eqb (id r) i)) (rows st) = rows st).
  { apply filter_all_kept. intros e He. destruct (Z.eqb_spec (id e) i); [|reflexivity].
    exfalso. apply Hi. rewrite <- e0. apply in_map; exact He. }
  unfold_tools. rewrite Hr'. destruct (db_initialized st) eqn:Ei; simpl; rewrite Hk, Nat.sub_diag;
    simpl; [destruct st; simpl in *; subst|]; reflexivity.
Qed.

(** Deleting the id of a stored row reports success and removes it. *)
Lemma delete_present st e :
  wf st -> In e (rows st) ->
  delete_expense NoFault (id e) st
  = (Return (DeleteSuccess (deleted_msg (id e))),
     mk_db true (filter (fun r => negb (Z.eqb (id r) (id e))) (rows st)) (seq st)).
Proof.
  intros Hwf He. pose proof (in_int64_true _ (wf_id_range st e Hwf He)) as Hr.
  unfold_tools. rewrite Hr.
  pose proof (filter_length_lt (fun r => negb (Z.eqb (id r) (id e))) (rows st) e He)
    as Hlt.
  specialize (Hlt ltac:(simpl; rewrite Z.eqb_refl; reflexivity)).
  destruct (db_initialized st) eqn:Ei; simpl;
  (destruct (Nat.eqb_spec (length (rows st) -
              length (filter (fun r => negb (Z.eqb (id r) (id e))) (rows st))) 0);
    [lia|]); simpl; [destruct st; simpl in *; subst|]; reflexivity.
Qed.

(** Once no row carries [i] and the counter has passed [i], no later call
    brings [i] back and no listing shows it. *)
Lemma gone_step c st i :
  wf st -> ~ In i (map id (rows st)) -> i <= seq st ->
  let (r, st') := run_op c st in
  wf st' /\ ~ In i (map id (rows st')) /\ i <= seq st' /\
  (forall n l, r = Return (ListSuccess n l) -> forall e, In e l -> id e <> i).
Proof.
  intros Hwf Hi Hle.
  pose proof (run_op_facts c st Hwf) as Hf.
  pose proof (run_op_rows c st Hwf) as Hr.
  pose proof (run_op_list_rows c st) as Hl.
  destruct (run_op c st) as [r st'].
  destruct Hf as (Hwf' & Hseq & _ & _).
  split; [exact Hwf'|]. split; [|split; [lia|]].
  - intros Hin. apply in_map_iff in Hin as (e & Hid & He).
    destruct (Hr e He) as [Hold|[Hnew Hlt]].
    + apply Hi. rewrite <- Hid. apply in_map; exact Hold.
    + lia.
  - intros n l -> e He Hid. apply Hi. rewrite <- Hid. apply in_map.
    exact (Hl n l st' eq_refl e He).
Qed.

Lemma gone_run tr st i :
  wf st -> ~ In i (map id (rows st)) -> i <= seq st ->
  let (st', rs) := run st tr in
  ~ In i (map id (rows st')) /\
  (forall n l, In (Return (ListSuccess n l)) rs -> forall e, In e l -> id e <> i).
Proof.
  revert st; induction tr as [|c tr IH]; intros st Hwf Hi Hle; simpl.
  - split; [exact Hi | tauto].
  - pose proof (gone_step c st i Hwf Hi Hle) as Hs.
    destruct (run_op c st) as [r st1].
    destruct Hs as (Hwf1 & Hi1 & Hle1 & Hl1).
    specialize (IH st1 Hwf1 Hi1 Hle1).
    destruct (run st1 tr) as [st2 rs].
    destruct IH as [Hi2 Hl2]. split; [exact Hi2|].
    intros n l [Heq|Hin]; [exact (Hl1 n l Heq)|exact (Hl2 n l Hin)].
Qed.

(** The rowids AUTOINCREMENT hands out along a run: each time the counter
    in [sqlite_sequence] moves, its new value has been assigned to a row. *)
Fixpoint handed_out (st : db_state) (tr : list call) : list Z :=
  match tr with
  | [] => []
  | c :: tr' =>
      let st' := snd (run_op c st) in
      (if Z.ltb (seq st) (seq st') then [seq st'] else []) ++ handed_out st' tr'
  end.

Lemma rows_handed_out tr st acc :
  wf st -> (forall e, In e (rows st) -> In (id e) acc) ->
  forall e, In e (rows (fst (run st tr))) -> In (id e) (acc ++ handed_out st tr).
Proof.
  revert st acc; induction tr as [|c tr IH]; intros st acc Hwf Hacc; simpl.
  - rewrite app_nil_r. exact Hacc.
  - pose proof (run_op_facts c st Hwf) as Hf.
    pose proof (run_op_rows c st Hwf) as Hr.
    destruct (run_op c st) as [r st1]; simpl.
    destruct Hf as (Hwf1 & _ & _ & _).
    specialize (IH st1 (acc ++ (if Z.ltb (seq st) (seq st1) then [seq st1] else [])) Hwf1).
    destruct (run st1 tr) as [st2 rs] eqn:Erun; simpl in *.
    intros e He. rewrite app_assoc. apply IH; [|exact He].
    intros e' He'. apply in_or_app. destruct (Hr e' He') as [Hold|[Hid Hlt]].
    + left; auto.
    + right. rewrite Hid. apply Z.ltb_lt in Hlt. rewrite Hlt. left; reflexivity.
Qed.

Lemma wf_empty : wf empty_db.
Proof. unfold wf; simpl. split; [lia | split; [constructor | split; [constructor | split; [unfold max_rowid; lia | constructor]]]]. Qed.

(** ** Adding. *)

Lemma run_added tr st :
  wf st ->
  let (st', rs) := run st tr in
  wf st' /\ seq st <= seq st' /\ StronglySorted Z.lt (added_ids rs) /\
  Forall (fun i => seq st < i <= seq st') (added_ids rs).
Proof.
  revert st; induction tr as [|c tr IH]; intros st Hwf; simpl.
  - split; [exact Hwf|]. split; [lia|]. split; constructor.
  - pose proof (run_op_facts c st Hwf) as Hf.
    destruct (run_op c st) as [r st1].
    destruct Hf as (Hwf1 & Hseq1 & [v ->] & Hadd).
    specialize (IH st1 Hwf1).
    destruct (run st1 tr) as [st2 rs].
    destruct IH as (Hwf2 & Hseq2 & Hsort & Hall).
    split; [exact Hwf2|]. split; [lia|].
    assert (Hw : Forall (fun i => seq st < i <= seq st2) (added_ids rs)).
    { eapply Forall_impl; [|exact Hall]. simpl; intros; lia. }
    destruct v; simpl; try (split; assumption).
    destruct (Hadd new_id message eq_refl) as [Hi Hlt].
    split.
    + constructor; [exact Hsort|]. eapply Forall_impl; [|exact Hall]. simpl; intros; lia.
    + constructor; [lia | exact Hw].
Qed.

(** ** GROUP BY category. *)

(** The sum of [amount] and the number of the rows of [l] in category [c]. *)
Definition cat_sum (c : string) (l : list expense) : Z :=
  fold_right Z.add 0 (map amount (filter (fun r => String.eqb (category r) c) l)).
Definition cat_count (c : string) (l : list expense) : Z :=
  Z.of_nat (length (filter (fun r => String.eqb (category r) c) l)).

Lemma cat_sum_snoc c l r :
  cat_sum c (l ++ [r]) = cat_sum c l + (if String.eqb (category r) c then amount r else 0).
Proof.
  unfold cat_sum. rewrite filter_app, map_app, fold_right_app. simpl.
  destruct (String.eqb (category r) c); simpl.
  - induction (map amount (filter (fun r0 => String.eqb (category r0) c) l)) as [|x xs IH];
      simpl; [lia|]. rewrite IH; lia.
  - induction (map amount (filter (fun r0 => String.eqb (category r0) c) l)) as [|x xs IH];
      simpl; [lia|]. rewrite IH; lia.
Qed.

Lemma cat_count_snoc c l r :
  cat_count c (l ++ [r]) = cat_count c l + (if String.eqb (category r) c then 1 else 0).
Proof.
  unfold cat_count. rewrite filter_app, length_app. simpl.
  destruct (String.eqb (category r) c); simpl; lia.
Qed.

Lemma filter_none {A} (p : A -> bool) l :
  (forall x, In x l -> p x = false) -> filter p l = [].
Proof.
  induction l as [|x l IH]; simpl; intros H; [reflexivity|].
  rewrite (H x (or_introl eq_refl)). apply IH. auto.
Qed.

Lemma cat_absent c l :
  ~ In c (map category l) -> cat_sum c l = 0 /\ cat_count c l = 0.
Proof.
  intros Hc. unfold cat_sum, cat_count.
  rewrite filter_none; [split; reflexivity|].
  intros r Hr. destruct (String.eqb_spec (category r) c); [|reflexivity].
  exfalso; apply Hc. rewrite <- e. apply in_map; exact Hr.
Qed.

(** A summary row is right for [l] when its total and count are those of
    the rows of [l] in its category. *)
Definition row_ok (l : list expense) (g : summary_row) : Prop :=
  s_total g = cat_sum (s_category g) l /\ s_count g = cat_count (s_category g) l.

Lemma add_to_groups_categories gs r :
  map s_category (add_to_groups gs r)
  = if existsb (fun c => String.eqb c (category r)) (map s_category gs)
    then map s_category gs else map s_category gs ++ [category r].
Proof.
  induction gs as [|g gs IH]; simpl; [reflexivity|].
  destruct (String.eqb (s_category g) (category r)) eqn:E; simpl; [reflexivity|].
  rewrite IH. destruct (existsb _ _); reflexivity.
Qed.

Lemma add_to_groups_ok gs l r :
  NoDup (map s_category gs) ->
  Forall (row_ok l) gs ->
  (~ In (category r) (map s_category gs) ->
     cat_sum (category r) l = 0 /\ cat_count (category r) l = 0) ->
  Forall (row_ok (l ++ [r])) (add_to_groups gs r).
Proof.
  induction gs as [|g gs IH]; simpl; intros Hnd Hok Habs.
  - destruct (Habs (fun H => H)) as [Hs Hc].
    constructor; [|constructor]. unfold row_ok; simpl.
    rewrite cat_sum_snoc, cat_count_snoc, String.eqb_refl. lia.
  - inversion Hnd as [|? ? Hnin Hnd']; subst.
    inversion Hok as [|? ? Hg Hgs]; subst.
    destruct (String.eqb_spec (s_category g) (category r)) as [Eq|Ne].
    + constructor.
      * destruct Hg as [Ht Hc]. unfold row_ok; simpl.
        rewrite cat_sum_snoc, cat_count_snoc, Eq, String.eqb_refl. rewrite Eq in Ht, Hc. lia.
      * rewrite Forall_forall in Hgs |- *. intros h Hh.
        destruct (Hgs h Hh) as [Ht Hc]. unfold row_ok.
        rewrite cat_sum_snoc, cat_count_snoc.
        destruct (String.eqb_spec (category r) (s_category h)) as [E|_]; [|lia].
        exfalso. apply Hnin. rewrite Eq, E. apply in_map; exact Hh.
    + constructor.
      * destruct Hg as [Ht Hc]. unfold row_ok.
        rewrite cat_sum_snoc, cat_count_snoc.
        destruct (String.eqb_spec (category r) (s_category g)); [congruence|lia].
      * apply IH; [exact Hnd' | exact Hgs |].
        intros Hn. apply Habs. intros [E|Hin]; [congruence|contradiction].
Qed.

(** The invariant of the GROUP BY accumulation. *)
Definition groups_ok (l : list expense) (gs : list summary_row) : Prop :=
  NoDup (map s_category gs) /\ Forall (row_ok l) gs /\
  (forall c, In c (map s_category gs) <-> In c (map category l)).

Lemma groups_ok_step l gs r : groups_ok l gs -> groups_ok (l ++ [r]) (add_to_groups gs r).
Proof.
  intros (Hnd & Hok & Hcov). split; [|split].
  - rewrite add_to_groups_categories. destruct (existsb _ _) eqn:E; [exact Hnd|].
    apply NoDup_app; [exact Hnd | constructor; [simpl; tauto | constructor] |].
    intros x Hx [<-|[]].
    assert (Ex : existsb (fun c => String.eqb c (category r)) (map s_category gs) = true).
    { apply existsb_exists. exists (category r). split; [exact Hx | apply String.eqb_refl]. }
    congruence.
  - apply add_to_groups_ok; [exact Hnd | exact Hok |].
    intros Hn. apply cat_absent. rewrite <- Hcov. exact Hn.
  - intros c. rewrite add_to_groups_categories, map_app, in_app_iff, <- Hcov. simpl.
    destruct (existsb _ _) eqn:E.
    + apply existsb_exists in E as (x & Hx & Ex). apply String.eqb_eq in Ex. subst x.
      split; [tauto|]. intros [H|[<-|[]]]; assumption.
    + rewrite in_app_iff. simpl. tauto.
Qed.

Lemma fold_groups_ok l l0 gs :
  groups_ok l0 gs -> groups_ok (l0 ++ l) (fold_left add_to_groups l gs).
Proof.
  revert l0 gs; induction l as [|r l IH]; intros l0 gs H; simpl.
  - rewrite app_nil_r; exact H.
  - replace (l0 ++ r :: l) with ((l0 ++ [r]) ++ l) by (rewrite <- app_assoc; reflexivity).
    apply IH, groups_ok_step, H.
Qed.

Lemma group_by_category_ok l : groups_ok l (group_by_category l).
Proof.
  apply (fold_groups_ok l []). split; [constructor|]. split; [constructor|].
  intros c; simpl; tauto.
Qed.

Lemma groups_ok_perm l gs gs' : Permutation gs' gs -> groups_ok l gs -> groups_ok l gs'.
Proof.
  intros Hp (Hnd & Hok & Hcov). split; [|split].
  - eapply Permutation_NoDup; [|exact Hnd]. apply Permutation_map, Permutation_sym, Hp.
  - rewrite Forall_forall in *. intros g Hg. apply Hok. eapply Permutation_in; eauto.
  - intros c. rewrite <- Hcov. split; intros H;
      eapply Permutation_in; [|exact H| |exact H]; apply Permutation_map;
      [|apply Permutation_sym]; exact Hp.
Qed.

Lemma sum_totals_fold_right summary :
  sum_totals summary = fold_right Z.add 0 (map s_total summary).
Proof.
  unfold sum_totals.
  assert (Hgen : forall a, fold_left (fun acc g => acc + s_total g) summary a
                           = a + fold_right Z.add 0 (map s_total summary)).
  { induction summary as [|g gs IH]; intros a; simpl; [lia|]. rewrite IH. lia. }
  rewrite Hgen. lia.
Qed.

(** What a successful [summarize_expenses] returns. *)
Lemma summarize_success ob f d1 d2 cat st summary total period st' :
  summarize_expenses ob f d1 d2 cat st = (Return (SummarySuccess summary total period), st') ->
  summary = ob_sort ob summary_row total_desc
              (group_by_category
                 (filter (summary_where d1 d2 (if truthy cat then cat else None)) (rows st))) /\
  total = sum_totals summary /\ period = append d1 (append " to " d2).
Proof.
  unfold_tools. destruct (db_initialized st); destruct f; simpl;
    intros Heq; inversion Heq; subst; auto.
Qed.

Lemma summary_where_none d1 d2 l :
  filter (summary_where d1 d2 None) l = filter (fun r => between d1 d2 (date r)) l.
Proof.
  apply filter_ext. intros r. unfold summary_where. apply andb_true_r.
Qed.

(** ** Calling [add_expense] with the arguments the caller supplied.

    The arguments are bound to the signature before the body (and its
    [try]) runs: a missing required parameter rejects the call with
    [ArgumentError] (see [exn]); the optional ones default to [""]. *)
Definition call_add_expense (f : fault) (d : option string) (a : option Z) (c : option string)
  (sc n : option string) : M envelope :=
  match d, a, c with
  | None, _, _ => raise (ArgumentError "date")
  | _, None, _ => raise (ArgumentError "amount")
  | _, _, None => raise (ArgumentError "category")
  | Some d, Some a, Some c =>
      add_expense f d a c (match sc with Some s => s | None => "" end)
                          (match n with Some s => s | None => "" end)
  end.

(** ** get_categories (lines 222-240). *)

(** The JSON values [json.dumps] is given here. *)
Inductive json :=
| JStr (s : string)
| JArr (items : list json)
| JObj (fields : list (string * json)).

Definition DEFAULT_CATEGORIES : json :=
  JObj [("categories"%string,
         JArr (map JStr ["Food & Dining"; "Transportation"; "Shopping"; "Entertainment";
                         "Bills & Utilities"; "Healthcare"; "Travel"; "Education";
                         "Business"; "Other"]%string))].

Definition nl : string := String (ascii_of_nat 10) EmptyString.
Definition dq : string := String (ascii_of_nat 34) EmptyString.
Definition bs : string := String (ascii_of_nat 92) EmptyString.

Definition hex_digit (n : nat) : ascii :=
  if Nat.ltb n 10 then ascii_of_nat (48 + n) else ascii_of_nat (87 + n).

(** One character as [json.dumps] writes it inside a string literal
    (ensure_ascii: control characters escaped). *)
Definition json_char (ch : ascii) : string :=
  let k := nat_of_ascii ch in
  if Nat.eqb k 34 then append bs dq
  else if Nat.eqb k 92 then append bs bs
  else if Nat.eqb k 10 then append bs "n"
  else if Nat.eqb k 13 then append bs "r"
  else if Nat.eqb k 9 then append bs "t"
  else if Nat.eqb k 8 then append bs "b"
  else if Nat.eqb k 12 then append bs "f"
  else if Nat.ltb k 32 then
    append bs (String "u" (String "0" (String "0"
      (String (hex_digit (k / 16)) (String (hex_digit (k mod 16)) EmptyString)))))
  else String ch EmptyString.

Fixpoint json_escape (s : string) : string :=
  match s with
  | EmptyString => EmptyString
  | String ch s' => append (json_char ch) (json_escape s')
  end.

Definition json_quote (s : string) : string := append dq (append (json_escape s) dq).

Fixpoint spaces (n : nat) : string :=
  match n with O => EmptyString | S n' => String " " (spaces n') end.

(** [json.dumps(v, indent=2)]: items separated by [","] and a new line,
    keys followed by [": "], each level indented by two more spaces. *)
Fixpoint dumps (level : nat) (v : json) : string :=
  let inner := append nl (spaces (2 * S level)) in
  let close := append nl (spaces (2 * level)) in
  match v with
  | JStr s => json_quote s
  | JArr [] => "[]"
  | JArr items =>
      append "[" (append (String.concat "," (map (fun x => append inner (dumps (S level) x)) items))
                         (append close "]"))
  | JObj [] => "{}"
  | JObj fields =>
      append "{" (append (String.concat ","
                           (map (fun kv => append inner (append (json_quote (fst kv))
                                             (append ": " (dumps (S level) (snd kv))))) fields))
                         (append close "}"))
  end.

(** What reading [categories.json] does: absent, raising, or its text. *)
Definition categories_file := option (py_result string).

(** [get_categories()], given [IS_CLOUD] and the categories file. *)
Definition get_categories (is_cloud : bool) (file : categories_file) : py_result string :=
  let from_file :=
    if is_cloud then None
    else match file with
         | Some (Return text) => Some text  (* return f.read() *)
         | Some (Raise _) => None            (* except Exception: pass *)
         | None => None                      (* not os.path.exists(...) *)
         end in
  match from_file with
  | Some text => Return text
  | None => Return (dumps 0 DEFAULT_CATEGORIES)
  end.

(** The default categories document as text, line by line. *)
Definition quoted (s : string) : string := append dq (append s dq).
Definition default_categories_text : string :=
  String.concat nl
    ["{"; append "  " (append (quoted "categories") ": [");
     append "    " (append (quoted "Food & Dining") ",");
     append "    " (append (quoted "Transportation") ",");
     append "    " (append (quoted "Shopping") ",");
     append "    " (append (quoted "Entertainment") ",");
     append "    " (append (quoted "Bills & Utilities") ",");
     append "    " (append (quoted "Healthcare") ",");
     append "    " (append (quoted "Travel") ",");
     append "    " (append (quoted "Education") ",");
     append "    " (append (quoted "Business") ",");
     append "    " (quoted "Other");
     "  ]"; "}"]%string.

(** ** Sample tables. *)

(** Two expenses on the same day, stored in id order. *)
Definition same_day_1 := mk_expense 1 "2024-03-01" 100 "Shopping" "" "".
Definition same_day_2 := mk_expense 2 "2024-03-01" 200 "Travel" "" "".
Definition same_day_db := mk_db true [same_day_1; same_day_2] 2.


(** The example of the spec: two expenses in March 2024. *)
Definition march_db := mk_db true [food; taxi] 2.

(** The listing order the spec asks for: date descending, id descending
    on equal dates. *)
Definition claimed_list_order (a b : expense) : bool :=
  String.ltb (date b) (date a) || (String.eqb (date a) (date b) && Z.ltb (id b) (id a)).


(** Add, delete the new row, add again. *)
Definition add_delete_add : list call :=
  [mk_call (OpAdd "2024-03-07" 900 "Shopping" "" "") NoFault isort_order_by;
   mk_call (OpDelete 3) NoFault isort_order_by;
   mk_call (OpAdd "2024-03-08" 100 "Other" "" "") NoFault isort_order_by].

(** An optional argument with its default [""]. *)
Definition or_empty (o : option string) : string :=
  match o with Some s => s | None => ""%string end.

(** What a successful [list_expenses] returns. *)
Lemma list_success ob f d1 d2 st n l st' :
  list_expenses ob f d1 d2 st = (Return (ListSuccess n l), st') ->
  l = ob_sort ob expense date_desc (filter (fun r => between d1 d2 (date r)) (rows st)) /\
  n = length l.
Proof.
  unfold_tools. destruct (db_initialized st); destruct f; simpl;
    intros Heq; inversion Heq; subst; auto.
Qed.

Lemma NoDup_all_same (C : string) l :
  NoDup l -> Forall (fun x => x = C) l -> (length l <= 1)%nat.
Proof.
  intros Hnd Hall. destruct l as [|a [|b l]]; simpl; [lia|lia|].
  inversion Hall as [|? ? Ha Hb]; subst. inversion Hb; subst.
  inversion Hnd; subst. exfalso. simpl in *. tauto.
Qed.

Example summary_march :
  summarize_expenses isort_order_by NoFault "2024-03-01" "2024-03-31" None march_db
  = (Return (SummarySuccess [mk_summary_row "Food & Dining" 4250 1;
                             mk_summary_row "Transportation" 1500 1] 5750
                            "2024-03-01 to 2024-03-31"), march_db).
Proof. reflexivity. Qed.

(** A decision procedure for [wf]. *)
Fixpoint nodupb (l : list Z) : bool :=
  match l with
  | [] => true
  | x :: l' => negb (existsb (Z.eqb x) l') && nodupb l'
  end.

Definition wfb (st : db_state) : bool :=
  Z.leb 0 (seq st) && nodupb (map id (rows st)) && forallb (fun r => Z.leb (id r) (seq st)) (rows st)
  && Z.leb (seq st) max_rowid && forallb (fun r => Z.leb min_int64 (id r)) (rows st).

Lemma nodupb_NoDup l : nodupb l = true -> NoDup l.
Proof.
  induction l as [|x l IH]; simpl; intros H; [constructor|].
  apply andb_prop in H as [Hx Hl]. constructor; [|auto].
  intros Hin. apply negb_true_iff in Hx.
  assert (existsb (Z.eqb x) l = true) by (apply existsb_exists; exists x; split; [exact Hin | apply Z.eqb_refl]).
  congruence.
Qed.

Lemma wfb_wf st : wfb st = true -> wf st.
Proof.
  unfold wfb, wf. intros H.
  apply andb_prop in H as [H Hmin]. apply andb_prop in H as [H Hmax].
  apply andb_prop in H as [H Hle]. apply andb_prop in H as [H0 Hnd].
  rewrite forallb_forall in Hle, Hmin.
  split; [apply Z.leb_le; exact H0|]. split; [apply nodupb_NoDup; exact Hnd|].
  split; [|split; [apply Z.leb_le; exact Hmax|]]; apply Forall_forall; intros r Hr; apply Z.leb_le; auto.
Qed.

(** What a successful [add_expense] did to the table. *)
Lemma add_success f d a c sc n st i m st' :
  wf st ->
  add_expense f d a c sc n st = (Return (AddSuccess i m), st') ->
  i = seq st + 1 /\ rows st' = rows st ++ [mk_expense i d a c sc n] /\ seq st' = i.
Proof.
  intros Hwf. pose proof (wf_base st Hwf) as Hb. unfold_tools.
  destruct (db_initialized st); destruct f; simpl; rewrite ?Hb;
    repeat match goal with
           | |- context [Z.leb ?a ?b] => destruct (Z.leb a b)
           end; simpl; intros Heq; inversion Heq; subst; auto.
Qed.

Lemma list_nofault ob d1 d2 st :
  fst (list_expenses ob NoFault d1 d2 st)
  = Return (ListSuccess
              (length (ob_sort ob expense date_desc (filter (fun r => between d1 d2 (date r)) (rows st))))
              (ob_sort ob expense date_desc (filter (fun r => between d1 d2 (date r)) (rows st)))).
Proof. unfold_tools. destruct (db_initialized st); reflexivity. Qed.

Lemma summarize_nofault ob d1 d2 cat st :
  let summary := ob_sort ob summary_row total_desc
                   (group_by_category
                      (filter (summary_where d1 d2 (if truthy cat then cat else None)) (rows st))) in
  fst (summarize_expenses ob NoFault d1 d2 cat st)
  = Return (SummarySuccess summary (sum_totals summary) (append d1 (append " to " d2))).
Proof. unfold_tools. destruct (db_initialized st); reflexivity. Qed.

Lemma ob_sort_nil ob A le : ob_sort ob A le [] = [].
Proof. apply Permutation_nil, Permutation_sym, ob_perm. Qed.

(** * Claims *)

(** C1 (as stated, refuted): rows with equal dates come out in the order
    the engine picks, here in ascending id order, not descending. *)
Lemma list_expenses_order_counterexample :
  ~ (forall ob f d1 d2 st n l st',
       list_expenses ob f d1 d2 st = (Return (ListSuccess n l), st') ->
       (forall e, In e l <-> In e (rows st) /\ between d1 d2 (date e) = true) /\
       Sorted (fun a b => claimed_list_order a b = true) l).
Proof.
  intros H.
  destruct (H isort_order_by NoFault "2024-03-01"%string "2024-03-31"%string same_day_db 2%nat
              [same_day_1; same_day_2] same_day_db eq_refl) as [_ Hs].
  inversion Hs as [|? ? _ Hhd]; subst. inversion Hhd; subst.
  discriminate.
Qed.

(** C1 (amended): [list_expenses(d1, d2)] returns exactly the stored rows
    whose date lies in [d1, d2] (byte-wise order), each once, ordered by
    date descending; the order of rows with equal dates is not fixed by the
    query; [count] is the number of rows returned. *)
Theorem list_expenses_range ob f d1 d2 st n l st'
  (Hres : list_expenses ob f d1 d2 st = (Return (ListSuccess n l), st')) :
  Permutation l (filter (fun r => between d1 d2 (date r)) (rows st)) /\
  (forall e, In e l <-> In e (rows st) /\ between d1 d2 (date e) = true) /\
  Sorted (fun a b => String.leb (date b) (date a) = true) l /\
  n = length l.
Proof.
  destruct (list_success _ _ _ _ _ _ _ _ Hres) as [-> ->].
  assert (Hp := ob_perm ob expense date_desc (filter (fun r => between d1 d2 (date r)) (rows st))).
  split; [exact Hp|]. split; [|split; [|reflexivity]].
  - intros e. split; intros He.
    + apply (filter_In (fun r => between d1 d2 (date r))).
      exact (Permutation_in _ Hp He).
    + apply (Permutation_in _ (Permutation_sym Hp)).
      apply (filter_In (fun r => between d1 d2 (date r))); exact He.
  - apply (ob_sorted ob expense date_desc). intros x y. apply String.leb_total.
Qed.

Lemma list_expenses_range_witness :
  list_expenses isort_order_by NoFault "2024-03-01" "2024-03-31" same_day_db
  = (Return (ListSuccess 2 [same_day_1; same_day_2]), same_day_db) /\
  (Permutation [same_day_1; same_day_2]
     (filter (fun r => between "2024-03-01" "2024-03-31" (date r)) (rows same_day_db)) /\
   (forall e, In e [same_day_1; same_day_2] <->
              In e (rows same_day_db) /\ between "2024-03-01" "2024-03-31" (date e) = true) /\
   Sorted (fun a b => String.leb (date b) (date a) = true) [same_day_1; same_day_2] /\
   2%nat = length [same_day_1; same_day_2]).
Proof.
  split; [reflexivity|]. apply list_expenses_range with isort_order_by NoFault same_day_db.
  reflexivity.
Defined.

(** C2: every row of [summarize_expenses(d1, d2)] holds the sum of the
    amounts and the number of the stored rows in the range with its
    category; the categories are those of the rows in the range, each once;
    the grand total is the sum of the rows' totals, 0 for an empty summary. *)
Theorem summarize_expenses_totals ob f d1 d2 st summary total period st'
  (Hres : summarize_expenses ob f d1 d2 None st
          = (Return (SummarySuccess summary total period), st')) :
  let in_range := filter (fun r => between d1 d2 (date r)) (rows st) in
  (forall g, In g summary ->
             s_total g = cat_sum (s_category g) in_range /\
             s_count g = cat_count (s_category g) in_range) /\
  NoDup (map s_category summary) /\
  (forall c, In c (map s_category summary) <-> In c (map category in_range)) /\
  total = fold_right Z.add 0 (map s_total summary) /\
  (summary = [] -> total = 0).
Proof.
  destruct (summarize_success _ _ _ _ _ _ _ _ _ _ Hres) as (Hs & Ht & _).
  simpl in Hs. rewrite summary_where_none in Hs.
  assert (Hok : groups_ok (filter (fun r => between d1 d2 (date r)) (rows st)) summary).
  { rewrite Hs. eapply groups_ok_perm; [apply ob_perm | apply group_by_category_ok]. }
  destruct Hok as (Hnd & Hrow & Hcov).
  intros in_range. split; [|split; [exact Hnd|split; [exact Hcov|]]].
  - rewrite Forall_forall in Hrow. exact Hrow.
  - rewrite Ht, sum_totals_fold_right. split; [reflexivity|]. intros ->. reflexivity.
Qed.

Lemma summarize_expenses_totals_witness :
  summarize_expenses isort_order_by NoFault "2024-03-01" "2024-03-31" None march_db
  = (Return (SummarySuccess [mk_summary_row "Food & Dining" 4250 1;
                             mk_summary_row "Transportation" 1500 1] 5750
                            "2024-03-01 to 2024-03-31"), march_db) /\
  let in_range := filter (fun r => between "2024-03-01" "2024-03-31" (date r)) (rows march_db) in
  let summary := [mk_summary_row "Food & Dining" 4250 1; mk_summary_row "Transportation" 1500 1] in
  (forall g, In g summary ->
             s_total g = cat_sum (s_category g) in_range /\
             s_count g = cat_count (s_category g) in_range) /\
  NoDup (map s_category summary) /\
  (forall c, In c (map s_category summary) <-> In c (map category in_range)) /\
  5750 = fold_right Z.add 0 (map s_total summary) /\
  (summary = [] -> 5750 = 0).
Proof.
  split; [reflexivity|].
  exact (summarize_expenses_totals isort_order_by NoFault "2024-03-01" "2024-03-31" march_db
           _ _ _ _ eq_refl).
Defined.

(** C3 (as stated, refuted): with [category=""] the filter is dropped, and
    a range holding two categories yields two rows, neither for [""]. *)
Lemma summarize_category_filter_counterexample :
  ~ (forall ob f d1 d2 C st summary total period st',
       summarize_expenses ob f d1 d2 (Some C) st
       = (Return (SummarySuccess summary total period), st') ->
       (length summary <= 1)%nat /\ Forall (fun g => s_category g = C) summary).
Proof.
  intros H.
  destruct (H isort_order_by NoFault "2024-03-01"%string "2024-03-31"%string ""%string march_db
              [mk_summary_row "Food & Dining" 4250 1; mk_summary_row "Transportation" 1500 1]
              5750 "2024-03-01 to 2024-03-31"%string march_db eq_refl) as [Hlen _].
  simpl in Hlen. lia.
Qed.

(** C3 (amended): for a non-empty category [C], a successful
    [summarize_expenses(d1, d2, category=C)] returns at most one row, for
    [C], and no row when no stored row in the range has category [C]; in
    that case, when storage does not fail, the call succeeds with an empty
    summary and total 0. *)
Theorem summarize_category_filter ob f d1 d2 C st
  (HC : C <> ""%string) :
  (forall summary total period st',
     summarize_expenses ob f d1 d2 (Some C) st
     = (Return (SummarySuccess summary total period), st') ->
     (length summary <= 1)%nat /\ Forall (fun g => s_category g = C) summary /\
     ((forall r, In r (rows st) -> between d1 d2 (date r) = true -> category r <> C) ->
      summary = [])) /\
  ((forall r, In r (rows st) -> between d1 d2 (date r) = true -> category r <> C) ->
   fst (summarize_expenses ob NoFault d1 d2 (Some C) st)
   = Return (SummarySuccess [] 0 (append d1 (append " to " d2)))).
Proof.
  assert (Ht : truthy (Some C) = true).
  { simpl. destruct (String.eqb_spec C ""); [contradiction|reflexivity]. }
  assert (Hempty : (forall r, In r (rows st) -> between d1 d2 (date r) = true -> category r <> C) ->
                   filter (summary_where d1 d2 (Some C)) (rows st) = []).
  { intros Hnone. apply filter_none. intros r Hr. unfold summary_where.
    destruct (between d1 d2 (date r)) eqn:Eb; [|reflexivity]. simpl.
    apply String.eqb_neq. exact (Hnone r Hr Eb). }
  split.
  - intros summary total period st' Hres.
    destruct (summarize_success _ _ _ _ _ _ _ _ _ _ Hres) as (Hs & _ & _).
    rewrite Ht in Hs.
    set (sel := filter (summary_where d1 d2 (Some C)) (rows st)) in Hs.
    assert (Hok : groups_ok sel summary).
    { rewrite Hs. eapply groups_ok_perm; [apply ob_perm | apply group_by_category_ok]. }
    destruct Hok as (Hnd & _ & Hcov).
    assert (Hall : Forall (fun c => c = C) (map s_category summary)).
    { rewrite Forall_forall. intros c Hc. apply Hcov in Hc.
      apply in_map_iff in Hc as (r & <- & Hr). unfold sel in Hr.
      apply filter_In in Hr as [_ Hr]. unfold summary_where in Hr.
      apply andb_prop in Hr as [_ Hr]. apply String.eqb_eq; exact Hr. }
    split; [|split].
    + rewrite <- (length_map s_category). exact (NoDup_all_same C _ Hnd Hall).
    + apply Forall_map in Hall. exact Hall.
    + intros Hnone. unfold sel in Hs. rewrite (Hempty Hnone) in Hs. simpl in Hs.
      apply Permutation_nil. rewrite Hs. apply Permutation_sym, ob_perm.
  - intros Hnone. rewrite summarize_nofault, Ht, (Hempty Hnone). simpl.
    rewrite ob_sort_nil. reflexivity.
Qed.

Lemma summarize_category_filter_witness :
  "Travel"%string <> ""%string /\
  ((forall summary total period st',
     summarize_expenses isort_order_by NoFault "2024-03-01" "2024-03-31" (Some "Travel"%string)
       march_db = (Return (SummarySuccess summary total period), st') ->
     (length summary <= 1)%nat /\
     Forall (fun g => s_category g = "Travel"%string) summary /\
     ((forall r, In r (rows march_db) -> between "2024-03-01" "2024-03-31" (date r) = true ->
                 category r <> "Travel"%string) -> summary = [])) /\
   ((forall r, In r (rows march_db) -> between "2024-03-01" "2024-03-31" (date r) = true ->
               category r <> "Travel"%string) ->
    fst (summarize_expenses isort_order_by NoFault "2024-03-01" "2024-03-31"
           (Some "Travel"%string) march_db)
    = Return (SummarySuccess [] 0 (append "2024-03-01" (append " to " "2024-03-31"))))).
Proof.
  split; [discriminate|].
  apply summarize_category_filter. discriminate.
Defined.




(** C10: [summarize_expenses] with [category=""] is the call without a
    category filter, in every state and whatever storage does. *)
Theorem summarize_empty_category ob f d1 d2 st :
  summarize_expenses ob f d1 d2 (Some ""%string) st = summarize_expenses ob f d1 d2 None st.
Proof. reflexivity. Qed.

(** C4 (as stated, refuted): an id no row ever had but beyond the SQLite
    INTEGER range, 2^63, is not reported as not found: sqlite3 cannot bind
    it and the call returns the generic error envelope. *)
Lemma delete_expense_not_found_counterexample :
  ~ (forall tr' i, ~ In i (handed_out empty_db tr') ->
       fst (delete_expense NoFault i (fst (run empty_db tr'))) = Return (Failure (not_found_msg i))).
Proof.
  intros H. specialize (H [] (max_rowid + 1) (fun Hin => Hin)).
  vm_compute in H. discriminate H.
Qed.

(** C4 (amended): deleting the id of a stored row succeeds; afterwards,
    whatever calls follow, no listing shows a row with that id and deleting
    it again reports not-found.  Deleting an SQLite INTEGER (signed 64-bit)
    that AUTOINCREMENT never handed out reports not-found too. *)
Theorem delete_expense_not_found st e tr
  (Hwf : wf st) (Hin : In e (rows st)) :
  (let (r1, st1) := delete_expense NoFault (id e) st in
   r1 = Return (DeleteSuccess (deleted_msg (id e))) /\
   let (st2, rs) := run st1 tr in
   (forall n l, In (Return (ListSuccess n l)) rs -> forall e', In e' l -> id e' <> id e) /\
   fst (delete_expense NoFault (id e) st2) = Return (Failure (not_found_msg (id e)))) /\
  (forall tr' i, min_int64 <= i <= max_rowid -> ~ In i (handed_out empty_db tr') ->
     fst (delete_expense NoFault i (fst (run empty_db tr'))) = Return (Failure (not_found_msg i))).
Proof.
  split.
  - rewrite (delete_present st e Hwf Hin). split; [reflexivity|].
    set (st1 := mk_db true (filter (fun r => negb (Z.eqb (id r) (id e))) (rows st)) (seq st)).
    assert (Hwf1 : wf st1) by (apply wf_delete; exact Hwf).
    assert (Hgone : ~ In (id e) (map id (rows st1))).
    { simpl. intros Hm. apply in_map_iff in Hm as (x & Hx & Hxin).
      apply filter_In in Hxin as [_ Hk]. rewrite Hx, Z.eqb_refl in Hk. discriminate. }
    assert (Hle : id e <= seq st1).
    { destruct Hwf as (_ & _ & Hall & _). rewrite Forall_forall in Hall. simpl. auto. }
    pose proof (gone_run tr st1 (id e) Hwf1 Hgone Hle) as Hrun.
    destruct (run st1 tr) as [st2 rs]. destruct Hrun as [Hgone2 Hlist].
    split; [exact Hlist|].
    rewrite (delete_absent st2 (id e) (wf_id_range st e Hwf Hin) Hgone2). reflexivity.
  - intros tr' i Hr Hi. rewrite delete_absent; [reflexivity|exact Hr|].
    intros Hm. apply in_map_iff in Hm as (x & Hx & Hxin).
    apply Hi. rewrite <- Hx.
    exact (rows_handed_out tr' empty_db [] wf_empty (fun e' H => match H with end) x Hxin).
Qed.

Lemma delete_expense_not_found_witness :
  wf march_db /\ In food (rows march_db) /\
  ((let (r1, st1) := delete_expense NoFault (id food) march_db in
    r1 = Return (DeleteSuccess (deleted_msg (id food))) /\
    let (st2, rs) := run st1 [mk_call (OpList "2024-03-01" "2024-03-31") NoFault isort_order_by] in
    (forall n l, In (Return (ListSuccess n l)) rs -> forall e', In e' l -> id e' <> id food) /\
    fst (delete_expense NoFault (id food) st2) = Return (Failure (not_found_msg (id food)))) /\
   (forall tr' i, min_int64 <= i <= max_rowid -> ~ In i (handed_out empty_db tr') ->
      fst (delete_expense NoFault i (fst (run empty_db tr'))) = Return (Failure (not_found_msg i)))).
Proof.
  assert (Hwf : wf march_db) by (apply wfb_wf; reflexivity).
  assert (Hin : In food (rows march_db)) by (simpl; tauto).
  split; [exact Hwf|]. split; [exact Hin|].
  exact (delete_expense_not_found march_db food
           [mk_call (OpList "2024-03-01" "2024-03-31") NoFault isort_order_by] Hwf Hin).
Defined.

(** C5: from a well-formed table, along any sequence of calls (with any
    storage failures), the ids reported by successful [add_expense] calls
    strictly increase, and each is above the counter at the start, so it
    is the id of no row stored then (deleted rows included). *)
Theorem add_expense_ids_increasing st tr (Hwf : wf st) :
  let (st', rs) := run st tr in
  StronglySorted Z.lt (added_ids rs) /\
  Forall (fun i => seq st < i /\ ~ In i (map id (rows st))) (added_ids rs).
Proof.
  pose proof (run_added tr st Hwf) as Hr. destruct (run st tr) as [st' rs].
  destruct Hr as (_ & _ & Hsort & Hall). split; [exact Hsort|].
  eapply Forall_impl; [|exact Hall]. intros i [Hlt _]. split; [exact Hlt|].
  destruct Hwf as (_ & _ & Hle & _). eapply not_in_ids; [exact Hle | exact Hlt].
Qed.

Lemma add_expense_ids_increasing_witness :
  wf march_db /\
  added_ids (snd (run march_db add_delete_add)) = [3; 4] /\
  (let (st', rs) := run march_db add_delete_add in
   StronglySorted Z.lt (added_ids rs) /\
   Forall (fun i => seq march_db < i /\ ~ In i (map id (rows march_db))) (added_ids rs)).
Proof.
  assert (Hwf : wf march_db) by (apply wfb_wf; reflexivity).
  split; [exact Hwf|]. split; [reflexivity|].
  exact (add_expense_ids_increasing march_db add_delete_add Hwf).
Defined.

(** C6: every call of the four tools, in every state and whatever the
    storage layer raises, returns (no exception escapes) an envelope whose
    status is ["success"] with the tool's payload or ["error"] with a
    message. *)
Theorem tools_return_envelope c st :
  exists v st', run_op c st = (Return v, st') /\
  ((status v = "success"%string /\ forall m, v <> Failure m) \/
   (status v = "error"%string /\ exists m, v = Failure m)).
Proof.
  assert (Hv : forall v, (status v = "success"%string /\ forall m, v <> Failure m) \/
                         (status v = "error"%string /\ exists m, v = Failure m)).
  { intros v; destruct v; [left; split; [reflexivity|discriminate]..|right; eauto]. }
  assert (Ht : forall body : M envelope, exists v st', try_except body st = (Return v, st')).
  { intros body. unfold try_except. destruct (body st) as [[v|e] st']; eauto. }
  destruct c as [o f ob]; unfold run_op; simpl.
  destruct o; unfold add_expense, list_expenses, summarize_expenses, delete_expense;
    match goal with
    | |- context [try_except ?body st] =>
        destruct (Ht body) as (v & st' & H); rewrite H; exists v, st'; split; auto
    end.
Qed.

(** C7 (as stated, refuted): a call lacking [category] gets no error
    envelope from [add_expense]: it is rejected while its arguments are
    bound, before the body and its [try] run. *)
Lemma add_expense_validation_counterexample :
  ~ (forall f d a c sc n st,
       (d = None \/ a = None \/ c = None) ->
       exists m st', call_add_expense f d a c sc n st = (Return (Failure m), st')).
Proof.
  intros H.
  destruct (H NoFault (Some "2024-03-01"%string) (Some 4250) None None None empty_db
              (or_intror (or_intror eq_refl))) as (m & st' & Heq).
  discriminate.
Qed.

(** C7 (amended): [add_expense] checks nothing itself.  A call lacking
    [date], [amount] or [category] is rejected at argument binding, before
    the body runs: the caller gets the binding error naming the parameter,
    no envelope of [add_expense], and nothing is inserted.  A successful
    call has inserted a row with the supplied values under a fresh id, the
    one AUTOINCREMENT just assigned, and returns that id. *)
Theorem add_expense_binding f d a c sc n st (Hwf : wf st) :
  ((d = None \/ a = None \/ c = None) ->
   exists p, call_add_expense f d a c sc n st = (Raise (ArgumentError p), st)) /\
  (forall d' a' c' i m st',
     d = Some d' -> a = Some a' -> c = Some c' ->
     call_add_expense f d a c sc n st = (Return (AddSuccess i m), st') ->
     In (mk_expense i d' a' c' (or_empty sc) (or_empty n)) (rows st') /\
     ~ In i (map id (rows st)) /\ i = seq st').
Proof.
  split.
  - intros [ -> | [ -> | -> ] ]; unfold call_add_expense, raise;
      [|destruct d|destruct d, a]; eexists; reflexivity.
  - intros d' a' c' i m st' -> -> -> Hres. unfold call_add_expense in Hres.
    destruct (add_success _ _ _ _ _ _ _ _ _ _ Hwf Hres) as (Hi & Hrows & Hseq).
    split; [|split; [|congruence]].
    + rewrite Hrows. apply in_or_app. right. left. reflexivity.
    + destruct Hwf as (_ & _ & Hle & _). eapply not_in_ids; [exact Hle | lia].
Qed.

Lemma add_expense_binding_witness :
  wf march_db /\
  call_add_expense NoFault (Some "2024-03-09"%string) (Some 0) (Some ""%string) None None march_db
  = (Return (AddSuccess 3 "Expense added: $0 for "), mk_db true (rows march_db ++
       [mk_expense 3 "2024-03-09" 0 "" "" ""]) 3) /\
  (((Some "2024-03-09"%string) = None \/ Some 0 = None \/ Some ""%string = None) ->
   exists p, call_add_expense NoFault (Some "2024-03-09"%string) (Some 0) (Some ""%string)
               None None march_db = (Raise (ArgumentError p), march_db)) /\
  (forall d' a' c' i m st',
     Some "2024-03-09"%string = Some d' -> Some 0 = Some a' -> Some ""%string = Some c' ->
     call_add_expense NoFault (Some "2024-03-09"%string) (Some 0) (Some ""%string) None None
       march_db = (Return (AddSuccess i m), st') ->
     In (mk_expense i d' a' c' (or_empty None) (or_empty None)) (rows st') /\
     ~ In i (map id (rows march_db)) /\ i = seq st').
Proof.
  assert (Hwf : wf march_db) by (apply wfb_wf; reflexivity).
  split; [exact Hwf|]. split; [reflexivity|].
  exact (add_expense_binding NoFault (Some "2024-03-09"%string) (Some 0) (Some ""%string)
           None None march_db Hwf).
Defined.

(** C9: [get_categories()] never raises; in the cloud, when
    [categories.json] is absent, or when reading it raises, it returns the
    built-in default: the ten labels in their order under ["categories"],
    as [json.dumps(..., indent=2)] writes them. *)
Theorem get_categories_default (is_cloud : bool) (file : categories_file)
  (Hfallback : is_cloud = true \/ file = None \/ exists e, file = Some (Raise e)) :
  (forall file', exists text, get_categories is_cloud file' = Return text) /\
  get_categories is_cloud file = Return default_categories_text /\
  dumps 0 DEFAULT_CATEGORIES = default_categories_text.
Proof.
  assert (Htext : dumps 0 DEFAULT_CATEGORIES = default_categories_text) by reflexivity.
  split; [|split; [|exact Htext]].
  - intros file'. unfold get_categories.
    destruct is_cloud; [eauto|]. destruct file' as [[t|e]|]; eauto.
  - unfold get_categories. rewrite <- Htext.
    destruct Hfallback as [ -> | [ -> | [e ->] ] ]; [reflexivity|..]; destruct is_cloud; reflexivity.
Qed.

Lemma get_categories_default_witness :
  (false = true \/ Some (@Raise string (StorageError "Permission denied"%string)) = None \/
   exists e, Some (@Raise string (StorageError "Permission denied"%string)) = Some (Raise e)) /\
  ((forall file', exists text, get_categories false file' = Return text) /\
   get_categories false (Some (Raise (StorageError "Permission denied"%string)))
   = Return default_categories_text /\
   dumps 0 DEFAULT_CATEGORIES = default_categories_text).
Proof.
  assert (H : false = true \/ Some (@Raise string (StorageError "Permission denied"%string)) = None \/
              exists e, Some (@Raise string (StorageError "Permission denied"%string))
                        = Some (Raise e)) by (right; right; eexists; reflexivity).
  split; [exact H|].
  exact (get_categories_default false (Some (Raise (StorageError "Permission denied"%string))) H).
Defined.

(** * Further properties of the service *)

(** ** Byte-wise text order. *)

Lemma string_compare_not_gt_trans a b c :
  String.compare a b <> Gt -> String.compare b c <> Gt -> String.compare a c <> Gt.
Proof.
  revert b c; induction a as [|x a IH]; intros b c Hab Hbc.
  - destruct c; simpl; discriminate.
  - destruct b as [|y b]; [simpl in Hab; congruence|].
    destruct c as [|z c]; [simpl in Hbc; congruence|].
    simpl in *. unfold Ascii.compare in *.
    destruct (N.compare_spec (N_of_ascii x) (N_of_ascii y)) as [Exy|Lxy|Gxy];
      [|clear Hab|congruence];
    destruct (N.compare_spec (N_of_ascii y) (N_of_ascii z)) as [Eyz|Lyz|Gyz];
      try congruence.
    + rewrite Exy, Eyz, N.compare_refl. apply (IH b c); assumption.
    + rewrite Exy. replace (N.compare (N_of_ascii z) (N_of_ascii z)) with Eq by
        (symmetry; apply N.compare_refl).
      rewrite (proj2 (N.compare_lt_iff _ _) Lyz). discriminate.
    + rewrite <- Eyz, (proj2 (N.compare_lt_iff _ _) Lxy). discriminate.
    + rewrite (proj2 (N.compare_lt_iff _ _) (N.lt_trans _ _ _ Lxy Lyz)). discriminate.
Qed.

Lemma string_leb_trans a b c :
  String.leb a b = true -> String.leb b c = true -> String.leb a c = true.
Proof.
  unfold String.leb. intros Hab Hbc.
  destruct (String.compare a c) eqn:E; [reflexivity|reflexivity|].
  exfalso. apply (string_compare_not_gt_trans a b c); [| |exact E];
    intros H; rewrite H in *; discriminate.
Qed.

(** Before [end_date] is reached from [start_date], nothing lies between. *)
Lemma between_reversed d1 d2 s : String.ltb d2 d1 = true -> between d1 d2 s = false.
Proof.
  intros Hlt. unfold between.
  destruct (String.leb d1 s) eqn:E1; [|reflexivity].
  destruct (String.leb s d2) eqn:E2; [|reflexivity].
  pose proof (string_leb_trans _ _ _ E1 E2) as H12.
  unfold String.leb, String.ltb in *. rewrite String.compare_antisym in H12.
  destruct (String.compare d2 d1); simpl in *; discriminate.
Qed.

(** ** Storage failures. *)

(** X: while the table has not been set up, a failure of [CREATE TABLE]
    turns every tool call into the error envelope
    ["Database initialization failed: ..."], leaves the state as it was
    (the flag stays unset), so the next call without failure sets it up. *)
Theorem init_failure_every_tool c m st
  (Hnot : db_initialized st = false) (Hf : c_fault c = InitFault m) :
  run_op c st = (Return (Failure (append "Database initialization failed: " m)), st) /\
  (forall c', c_fault c' = NoFault -> db_initialized (snd (run_op c' st)) = true).
Proof.
  split.
  - destruct c as [o f ob]; simpl in Hf; subst f.
    destruct o; unfold_tools; rewrite Hnot; reflexivity.
  - intros [o f ob] Hf'; simpl in Hf'; subst f. destruct o; unfold_tools; rewrite Hnot; simpl;
      repeat match goal with
             | |- context [Z.leb ?a ?b] => destruct (Z.leb a b)
             | |- context [Nat.eqb ?a ?b] => destruct (Nat.eqb a b)
             | |- context [truthy ?c] => destruct (truthy c)
             | |- context [in_int64 ?i] => destruct (in_int64 i)
             end; reflexivity.
Qed.

Lemma init_failure_every_tool_witness :
  db_initialized empty_db = false /\
  c_fault (mk_call (OpList "2024-03-01" "2024-03-31") (InitFault "unable to open database file")
             isort_order_by) = InitFault "unable to open database file" /\
  (run_op (mk_call (OpList "2024-03-01" "2024-03-31") (InitFault "unable to open database file")
             isort_order_by) empty_db
   = (Return (Failure (append "Database initialization failed: " "unable to open database file")),
      empty_db) /\
   (forall c', c_fault c' = NoFault -> db_initialized (snd (run_op c' empty_db)) = true)).
Proof.
  split; [reflexivity|]. split; [reflexivity|].
  apply init_failure_every_tool; reflexivity.
Defined.

(** X: when the storage layer raises before the commit, every tool returns
    the error envelope carrying the exception's message, and no row and
    not the counter has changed. *)
Theorem store_failure_every_tool c m st (Hf : c_fault c = StoreFault m) :
  let (r, st') := run_op c st in
  r = Return (Failure m) /\ rows st' = rows st /\ seq st' = seq st.
Proof.
  destruct c as [o f ob]; simpl in Hf; subst f.
  destruct o; unfold_tools; destruct (db_initialized st); simpl; auto.
Qed.

Lemma store_failure_every_tool_witness :
  c_fault (mk_call (OpDelete 1) (StoreFault "database is locked") isort_order_by)
  = StoreFault "database is locked" /\
  (let (r, st') := run_op (mk_call (OpDelete 1) (StoreFault "database is locked") isort_order_by)
                     march_db in
   r = Return (Failure "database is locked") /\ rows st' = rows march_db /\
   seq st' = seq march_db).
Proof.
  split; [reflexivity|]. apply store_failure_every_tool. reflexivity.
Defined.

(** X: when closing the connection fails after an insert was committed,
    [add_expense] reports an error although the row is stored and its id
    consumed. *)
Theorem add_close_failure_keeps_row m d a c sc n st
  (Hwf : wf st) (Hroom : seq st < max_rowid) :
  add_expense (CloseFault m) d a c sc n st
  = (Return (Failure m),
     mk_db true (rows st ++ [mk_expense (seq st + 1) d a c sc n]) (seq st + 1)).
Proof.
  pose proof (wf_base st Hwf) as Hb.
  assert (Hl : Z.leb max_rowid (seq st) = false) by (apply Z.leb_gt; exact Hroom).
  unfold_tools. destruct (db_initialized st) eqn:Ei; simpl; rewrite Hb, Hl; simpl;
    [rewrite Ei|]; reflexivity.
Qed.

Lemma add_close_failure_keeps_row_witness :
  wf march_db /\ seq march_db < max_rowid /\
  add_expense (CloseFault "disk I/O error") "2024-03-09" 700 "Travel" "" "" march_db
  = (Return (Failure "disk I/O error"),
     mk_db true (rows march_db ++ [mk_expense (seq march_db + 1) "2024-03-09" 700 "Travel" "" ""])
           (seq march_db + 1)).
Proof.
  assert (Hwf : wf march_db) by (apply wfb_wf; reflexivity).
  assert (Hr : seq march_db < max_rowid) by (unfold max_rowid; simpl; lia).
  split; [exact Hwf|]. split; [exact Hr|].
  apply add_close_failure_keeps_row; assumption.
Defined.

(** X: [list_expenses] and [summarize_expenses] never change a row or the
    counter, whatever the storage layer does. *)
Theorem read_tools_keep_table ob f d1 d2 cat st :
  rows (snd (list_expenses ob f d1 d2 st)) = rows st /\
  seq (snd (list_expenses ob f d1 d2 st)) = seq st /\
  rows (snd (summarize_expenses ob f d1 d2 cat st)) = rows st /\
  seq (snd (summarize_expenses ob f d1 d2 cat st)) = seq st.
Proof.
  unfold_tools. destruct (db_initialized st); destruct f; simpl; auto.
Qed.

(** X: when the AUTOINCREMENT counter has reached the largest rowid,
    [add_expense] returns the error envelope ["database or disk is full"]
    and stores nothing. *)
Theorem add_when_full d a c sc n st
  (Hwf : wf st) (Hfull : seq st = max_rowid) :
  fst (add_expense NoFault d a c sc n st) = Return (Failure "database or disk is full") /\
  rows (snd (add_expense NoFault d a c sc n st)) = rows st /\
  seq (snd (add_expense NoFault d a c sc n st)) = seq st.
Proof.
  pose proof (wf_base st Hwf) as Hb.
  assert (Hl : Z.leb max_rowid (seq st) = true) by (apply Z.leb_le; lia).
  unfold_tools. destruct (db_initialized st); simpl; rewrite Hb, Hl; simpl; auto.
Qed.

Lemma add_when_full_witness :
  wf (mk_db true [] max_rowid) /\ seq (mk_db true [] max_rowid) = max_rowid /\
  (fst (add_expense NoFault "2024-03-09" 700 "Travel" "" "" (mk_db true [] max_rowid))
   = Return (Failure "database or disk is full") /\
   rows (snd (add_expense NoFault "2024-03-09" 700 "Travel" "" "" (mk_db true [] max_rowid)))
   = rows (mk_db true [] max_rowid) /\
   seq (snd (add_expense NoFault "2024-03-09" 700 "Travel" "" "" (mk_db true [] max_rowid)))
   = seq (mk_db true [] max_rowid)).
Proof.
  assert (Hwf : wf (mk_db true [] max_rowid)) by (apply wfb_wf; reflexivity).
  split; [exact Hwf|]. split; [reflexivity|].
  apply add_when_full; [exact Hwf|reflexivity].
Defined.

(** ** Ranges, deletes and round trips. *)

(** X: a range whose end date sorts before its start date is empty:
    [list_expenses] returns no row and [summarize_expenses] an empty summary
    with total 0, whatever the table holds. *)
Theorem reversed_range_empty ob d1 d2 cat st (Hrev : String.ltb d2 d1 = true) :
  fst (list_expenses ob NoFault d1 d2 st) = Return (ListSuccess 0 []) /\
  fst (summarize_expenses ob NoFault d1 d2 cat st)
  = Return (SummarySuccess [] 0 (append d1 (append " to " d2))).
Proof.
  split.
  - rewrite list_nofault, filter_none, ob_sort_nil; [reflexivity|].
    intros r _. apply between_reversed; exact Hrev.
  - rewrite summarize_nofault. rewrite filter_none; [simpl; rewrite ob_sort_nil; reflexivity|].
    intros r _. unfold summary_where. rewrite between_reversed by exact Hrev. reflexivity.
Qed.

Lemma reversed_range_empty_witness :
  String.ltb "2024-03-01" "2024-03-31" = true /\
  (fst (list_expenses isort_order_by NoFault "2024-03-31" "2024-03-01" march_db)
   = Return (ListSuccess 0 []) /\
   fst (summarize_expenses isort_order_by NoFault "2024-03-31" "2024-03-01" None march_db)
   = Return (SummarySuccess [] 0 (append "2024-03-31" (append " to " "2024-03-01")))).
Proof.
  split; [reflexivity|]. apply reversed_range_empty. reflexivity.
Defined.

Lemma filter_one_removed l i :
  NoDup (map id l) -> In i (map id l) ->
  S (length (filter (fun r => negb (Z.eqb (id r) i)) l)) = length l.
Proof.
  induction l as [|x l IH]; simpl; intros Hnd Hin; [contradiction|].
  inversion Hnd as [|? ? Hnin Hnd']; subst.
  destruct (Z.eqb_spec (id x) i) as [E|N]; simpl.
  - subst i. rewrite filter_all_kept; [reflexivity|].
    intros r Hr. destruct (Z.eqb_spec (id r) (id x)) as [E|]; [|reflexivity].
    exfalso. apply Hnin. rewrite <- E. apply in_map; exact Hr.
  - destruct Hin as [E|Hin]; [congruence|]. rewrite IH; auto.
Qed.

(** X: deleting a stored id removes exactly that row: every other row stays,
    in order, the table shrinks by one and the counter is unchanged. *)
Theorem delete_removes_one st i (Hwf : wf st) (Hin : In i (map id (rows st))) :
  let (r, st') := delete_expense NoFault i st in
  r = Return (DeleteSuccess (deleted_msg i)) /\
  rows st' = filter (fun e => negb (Z.eqb (id e) i)) (rows st) /\
  S (length (rows st')) = length (rows st) /\ seq st' = seq st.
Proof.
  apply in_map_iff in Hin as (e & <- & He).
  rewrite (delete_present st e Hwf He). simpl. split; [reflexivity|]. split; [reflexivity|].
  split; [|reflexivity]. apply filter_one_removed; [apply Hwf|]. apply in_map; exact He.
Qed.

Lemma delete_removes_one_witness :
  wf march_db /\ In 1 (map id (rows march_db)) /\
  (let (r, st') := delete_expense NoFault 1 march_db in
   r = Return (DeleteSuccess (deleted_msg 1)) /\
   rows st' = filter (fun e => negb (Z.eqb (id e) 1)) (rows march_db) /\
   S (length (rows st')) = length (rows march_db) /\ seq st' = seq march_db).
Proof.
  assert (Hwf : wf march_db) by (apply wfb_wf; reflexivity).
  assert (Hin : In 1 (map id (rows march_db))) by (simpl; tauto).
  split; [exact Hwf|]. split; [exact Hin|]. exact (delete_removes_one march_db 1 Hwf Hin).
Defined.

(** X: after a successful [add_expense], a [list_expenses] over any range
    holding its date shows the new row with the returned id. *)
Theorem add_then_list ob f d a c sc n st i m st1 d1 d2
  (Hwf : wf st) (Hadd : add_expense f d a c sc n st = (Return (AddSuccess i m), st1))
  (Hrange : between d1 d2 d = true) :
  exists l, fst (list_expenses ob NoFault d1 d2 st1) = Return (ListSuccess (length l) l) /\
            In (mk_expense i d a c sc n) l.
Proof.
  destruct (add_success _ _ _ _ _ _ _ _ _ _ Hwf Hadd) as (_ & Hrows & _).
  eexists. rewrite list_nofault. split; [reflexivity|].
  apply (Permutation_in _ (Permutation_sym (ob_perm _ _ _ _))).
  apply filter_In. split; [|exact Hrange]. rewrite Hrows. apply in_or_app. right; left; reflexivity.
Qed.

Lemma add_then_list_witness :
  wf march_db /\
  add_expense NoFault "2024-03-09" 700 "Travel" "" "" march_db
  = (Return (AddSuccess 3 "Expense added: $700 for Travel"),
     mk_db true [food; taxi; mk_expense 3 "2024-03-09" 700 "Travel" "" ""] 3) /\
  between "2024-03-01" "2024-03-31" "2024-03-09" = true /\
  (exists l, fst (list_expenses isort_order_by NoFault "2024-03-01" "2024-03-31"
                    (mk_db true [food; taxi; mk_expense 3 "2024-03-09" 700 "Travel" "" ""] 3))
             = Return (ListSuccess (length l) l) /\
             In (mk_expense 3 "2024-03-09" 700 "Travel" "" "") l).
Proof.
  assert (Hwf : wf march_db) by (apply wfb_wf; reflexivity).
  split; [exact Hwf|]. split; [reflexivity|]. split; [reflexivity|].
  exact (add_then_list isort_order_by NoFault "2024-03-09" 700 "Travel" "" "" march_db 3
           "Expense added: $700 for Travel" _ "2024-03-01" "2024-03-31" Hwf eq_refl eq_refl).
Defined.

(** X: deleting the id a successful [add_expense] returned brings the rows
    back to what they were before the insert; the counter keeps the
    consumed id. *)
Theorem add_then_delete f d a c sc n st i m st1
  (Hwf : wf st) (Hadd : add_expense f d a c sc n st = (Return (AddSuccess i m), st1)) :
  let (r, st2) := delete_expense NoFault i st1 in
  r = Return (DeleteSuccess (deleted_msg i)) /\ rows st2 = rows st /\ seq st2 = i.
Proof.
  destruct (add_success _ _ _ _ _ _ _ _ _ _ Hwf Hadd) as (Hi & Hrows & Hseq).
  assert (Hin : In (mk_expense i d a c sc n) (rows st1))
    by (rewrite Hrows; apply in_or_app; right; left; reflexivity).
  assert (Hwf1 : wf st1).
  { pose proof (run_op_facts (mk_call (OpAdd d a c sc n) f isort_order_by) st Hwf) as Hf.
    change (run_op (mk_call (OpAdd d a c sc n) f isort_order_by) st)
      with (add_expense f d a c sc n st) in Hf.
    rewrite Hadd in Hf. apply Hf. }
  pose proof (delete_present st1 _ Hwf1 Hin) as Hd. simpl in Hd. rewrite Hd. simpl.
  split; [reflexivity|]. split; [|exact Hseq].
  rewrite Hrows, filter_app. simpl. rewrite Z.eqb_refl, app_nil_r.
  apply filter_all_kept. intros e He. apply negb_true_iff, Z.eqb_neq.
  destruct Hwf as (_ & _ & Hle & _). rewrite Forall_forall in Hle. specialize (Hle e He). lia.
Qed.

Lemma add_then_delete_witness :
  wf march_db /\
  add_expense NoFault "2024-03-09" 700 "Travel" "" "" march_db
  = (Return (AddSuccess 3 "Expense added: $700 for Travel"),
     mk_db true [food; taxi; mk_expense 3 "2024-03-09" 700 "Travel" "" ""] 3) /\
  (let (r, st2) := delete_expense NoFault 3
                     (mk_db true [food; taxi; mk_expense 3 "2024-03-09" 700 "Travel" "" ""] 3) in
   r = Return (DeleteSuccess (deleted_msg 3)) /\ rows st2 = rows march_db /\ seq st2 = 3).
Proof.
  assert (Hwf : wf march_db) by (apply wfb_wf; reflexivity).
  split; [exact Hwf|]. split; [reflexivity|].
  exact (add_then_delete NoFault "2024-03-09" 700 "Travel" "" "" march_db 3
           "Expense added: $700 for Travel" _ Hwf eq_refl).
Defined.
